(** * lm_classification.utils.api: retry, cost gate and batched completion

    A shallow embedding of [src/lm_classification/utils/api.py].

    Effects are modelled by a small state-and-exception monad [M]: the state
    records the observable trace (remote invocations, sleeps, confirmation
    prompts, progress-bar updates), the operator's pending answers to [input],
    and the number of remote invocations made so far.  A remote operation is a
    function from the index of the invocation to its outcome, so that an
    operation may fail on some invocations and succeed on others. *)

From Stdlib Require Import ZArith List String Lia PrimFloat.
Import ListNotations.
Open Scope Z_scope.
Set Warnings "-inexact-float".

(** ** Errors raised by the OpenAI client *)

(** [openai.error.ServiceUnavailableError], [openai.error.RateLimitError],
    and any other error class, named by its class name. *)
Inductive error_kind : Type :=
| ServiceUnavailableError
| RateLimitError
| OtherError (cls : string).

(** An error object: its class and an opaque payload identifying the
    object (message, request id, ...). *)
Record openai_error : Type := mkError {
  err_kind : error_kind;
  err_payload : nat
}.

(** The [except (ServiceUnavailableError, RateLimitError)] clause. *)
Definition is_retried (e : openai_error) : bool :=
  match err_kind e with
  | ServiceUnavailableError | RateLimitError => true
  | OtherError _ => false
  end.

(** Python exceptions that can escape the functions of this module. *)
Inductive exn : Type :=
| OpenAIException (e : openai_error)
| UnboundLocalError    (** [raise exception] with [exception] never bound *)
| UserCanceled
| EOFError             (** [input()] at end of input *)
| InvalidArgument      (** [batch.constant] with a non-positive size *)
| ValueError           (** [gpt2_tokenizer([])] *)
| TypeError.           (** a call given two values for one argument *)

(** The outcome of one invocation of a remote operation. *)
Inductive outcome (A : Type) : Type :=
| Success (a : A)
| Failure (e : openai_error).
Arguments Success {A} a.
Arguments Failure {A} e.

(** ** State, trace and monad *)

(** The cost shown to the operator: the string ['unknown'] or a float. *)
Inductive cost_val : Type :=
| CostStr (s : string)
| CostFloat (f : float).

Inductive event : Type :=
| Invoke                          (** one call of the remote operation *)
| Sleep (sec : float)             (** [time.sleep(sec)] *)
| Prompt (cost : cost_val) (num_tokens : Z)   (** one [input(...)] prompt *)
| Progress (n : nat).             (** [progress_bar.update(n)] *)

Record state : Type := mkState {
  trace : list event;
  inputs : list string;   (** lines the operator will type, in order *)
  ncalls : nat            (** remote invocations made so far *)
}.

Inductive result (A : Type) : Type :=
| Ok (a : A)
| Exc (x : exn).
Arguments Ok {A} a.
Arguments Exc {A} x.

Definition M (A : Type) : Type := state -> result A * state.

Definition ret {A} (a : A) : M A := fun s => (Ok a, s).
Definition raise {A} (x : exn) : M A := fun s => (Exc x, s).
Definition bind {A B} (m : M A) (k : A -> M B) : M B :=
  fun s => match m s with
           | (Ok a, s') => k a s'
           | (Exc x, s') => (Exc x, s')
           end.
(** [try: m except x: h x] *)
Definition try_except {A} (m : M A) (h : exn -> M A) : M A :=
  fun s => match m s with
           | (Ok a, s') => (Ok a, s')
           | (Exc x, s') => h x s'
           end.

Notation "x <- m ;; k" := (bind m (fun x => k))
  (at level 61, m at next level, right associativity).
Notation "m ;; k" := (bind m (fun _ => k))
  (at level 61, right associativity).

Definition emit (ev : event) : M unit :=
  fun s => (Ok tt, mkState (trace s ++ [ev]) (inputs s) (ncalls s)).

(** Call a remote operation once: its outcome depends on the index of the
    invocation; a failure is raised as a Python exception. *)
Definition invoke {A} (op : nat -> outcome A) : M A :=
  fun s =>
    let s' := mkState (trace s ++ [Invoke]) (inputs s) (S (ncalls s)) in
    match op (ncalls s) with
    | Success a => (Ok a, s')
    | Failure e => (Exc (OpenAIException e), s')
    end.

Definition sleep (sec : float) : M unit := emit (Sleep sec).

(** ** [openai_method_retry] *)

Section Retry.
Context {A : Type}.
Variable openai_method : nat -> outcome A.
Variable max_num_tries : Z.
Variable sleep_sec : float.

(** After the loop:
    [logger.error(f'... {exception}'); raise exception].
    Reading the never-assigned local [exception] raises [UnboundLocalError]. *)
Definition after_loop (exception : option openai_error) : M A :=
  match exception with
  | None => raise UnboundLocalError
  | Some e => raise (OpenAIException e)
  end.

(** The [while num_tries < max_num_tries] loop.  [exception] is the local of
    that name ([None] while unassigned).  [num_tries] starts at 0 and grows by
    one per iteration, so [Z.to_nat max_num_tries] iterations is a bound: the
    fuel runs out only where the loop condition is false anyway. *)
Fixpoint retry_loop (fuel : nat) (num_tries : Z)
         (exception : option openai_error) : M A :=
  match fuel with
  | O => after_loop exception
  | S fuel' =>
      if num_tries <? max_num_tries then
        try_except (invoke openai_method)
          (fun x =>
             match x with
             | OpenAIException e =>
                 if is_retried e then
                   let num_tries := num_tries + 1 in
                   sleep sleep_sec ;;
                   retry_loop fuel' num_tries (Some e)
                 else raise x
             | _ => raise x
             end)
      else after_loop exception
  end.

Definition openai_method_retry : M A :=
  retry_loop (Z.to_nat max_num_tries) 0 None.

End Retry.

(** Counting events of a trace. *)
Definition invocations (t : list event) : nat :=
  List.length (filter (fun ev => match ev with Invoke => true | _ => false end) t).
Definition sleeps (t : list event) : nat :=
  List.length (filter (fun ev => match ev with Sleep _ => true | _ => false end) t).

(** ** Cost table *)

(** [get_args(Model)] *)
Definition Model_args : list string :=
  ["text-ada-001"; "text-babbage-001"; "text-curie-001"; "text-davinci-003"]%string.

Definition _costs : list float := [0.0004; 0.0005; 0.002; 0.02]%float.

(** [dict(zip(get_args(Model), _costs))], as an association list. *)
Definition model_to_cost_per_1k : list (string * float) :=
  combine Model_args _costs.

(** [d.get(k)] *)
Fixpoint dict_get (k : string) (d : list (string * float)) : option float :=
  match d with
  | [] => None
  | (k', v) :: d' => if String.eqb k k' then Some v else dict_get k d'
  end.

(** ** The operator prompt *)

(** One call of [input(f'This API call will cost you about ${cost} ...')]:
    the prompt is shown, then a line is read; at end of input [input] raises
    [EOFError]. *)
Definition input_prompt (cost : cost_val) (num_tokens : Z) : M string :=
  fun s =>
    let t := trace s ++ [Prompt cost num_tokens] in
    match inputs s with
    | [] => (Exc EOFError, mkState t [] (ncalls s))
    | x :: rest => (Ok x, mkState t rest (ncalls s))
    end.

(** [output in {'y', 'n'}], with [None] for Python's [None]. *)
Definition in_y_n (output : option string) : bool :=
  match output with
  | Some o => String.eqb o "y"%string || String.eqb o "n"%string
  | None => false
  end.

(** [while output not in {'y', 'n'}: output = input(...)].  Every iteration
    but the last consumes one pending line, and the one after the last line
    raises [EOFError]; so one more iteration than there are pending lines is
    a bound, and the fuel never runs out before the loop exits. *)
Fixpoint prompt_loop (cost : cost_val) (num_tokens : Z) (fuel : nat)
         (output : option string) : M (option string) :=
  match fuel with
  | O => ret output
  | S fuel' =>
      if in_y_n output then ret output
      else o <- input_prompt cost num_tokens ;;
           prompt_loop cost num_tokens fuel' (Some o)
  end.

Definition sum_Z (l : list Z) : Z := fold_right Z.add 0 l.

(** ** [_openai_api_call_is_ok] and [gpt3_complete] *)

Section Api.

(** Python's [float(n)] for an int [n] (applied implicitly in [int * float]
    and [float / int]), and the builtin [round(x, ndigits)]. *)
Variable float_of_int : Z -> float.
Variable py_round : float -> Z -> float.
(** The GPT-2 BPE encoding of one text, as token ids. *)
Variable gpt2_encode : string -> list Z.

(** [gpt2_tokenizer(texts)['input_ids']].  Without padding, each text of the
    list is encoded on its own.  On the empty list the tokenizer's batch
    padding finds no [input_ids] key in the (empty) encoding and raises
    [ValueError]. *)
Definition gpt2_tokenizer_input_ids (texts : list string) : M (list (list Z)) :=
  match texts with
  | [] => raise ValueError
  | _ => ret (map gpt2_encode texts)
  end.

Definition _openai_api_call_is_ok (model : string) (texts : list string)
           (max_tokens : Z) : M unit :=
  let texts := texts in
  input_ids <- gpt2_tokenizer_input_ids texts ;;
  let _num_tokens_prompts :=
    sum_Z (map (fun tokens => Z.of_nat (List.length tokens)) input_ids) in
  let _num_tokens_completions := Z.of_nat (List.length texts) * max_tokens in
  let num_tokens := _num_tokens_prompts + _num_tokens_completions in
  let cost_per_1k_tokens := dict_get model model_to_cost_per_1k in
  let cost :=
    match cost_per_1k_tokens with
    | None => CostStr "unknown"%string
    | Some c =>
        CostFloat (py_round
                     (PrimFloat.div (PrimFloat.mul (float_of_int num_tokens) c)
                                    (float_of_int 1000)) 2)
    end in
  fun s =>
    (output <- prompt_loop cost num_tokens (S (List.length (inputs s))) None ;;
     if match output with Some o => String.eqb o "n"%string | None => false end
     then raise UserCanceled
     else ret tt) s.

(** Modelled from the spec: [batch.constant] of [lm_classification.utils.batch]
    (not among the sources): consecutive, non-overlapping chunks of [size]
    items in order, the last possibly shorter; [InvalidArgument] for a
    non-positive [size].  [chunks] peels one chunk per unit of fuel; the
    length of the list is enough fuel. *)
Fixpoint chunks {X} (fuel : nat) (size : nat) (l : list X) : list (list X) :=
  match fuel, l with
  | O, _ => []
  | _, [] => []
  | S fuel', _ => firstn size l :: chunks fuel' size (skipn size l)
  end.

Definition constant {X} (l : list X) (size : Z) : option (list (list X)) :=
  if size <=? 0 then None
  else Some (chunks (List.length l) (Z.to_nat size) l).

(** The [texts] argument: a bare [str] or a sequence of strings. *)
Inductive texts_arg : Type :=
| PyStr (s : string)
| PySeq (l : list string).

(** The [**openai_completion_kwargs] of [gpt3_complete].  Its keys are never
    [texts], [model], [ask_if_ok] or [max_tokens]: those bind the named
    parameters.  They are passed on in
    [openai_method_retry(openai.Completion.create, prompt=..., model=...,
    max_tokens=..., **openai_completion_kwargs)]: a [max_num_tries] or
    [sleep_sec] key sets that parameter of [openai_method_retry]; an
    [openai_method] or [prompt] key gives that call two values for one
    argument, a [TypeError]; the other keys reach
    [openai.Completion.create]. *)
Record completion_kwargs (K : Type) : Type := mkKwargs {
  kw_max_num_tries : option Z;
  kw_sleep_sec : option float;
  kw_openai_method : bool;   (** an [openai_method] key is given *)
  kw_prompt : bool;          (** a [prompt] key is given *)
  kw_rest : K                (** the other keys *)
}.
Arguments kw_max_num_tries {K} _.
Arguments kw_sleep_sec {K} _.
Arguments kw_openai_method {K} _.
Arguments kw_prompt {K} _.
Arguments kw_rest {K} _.

(** A keyword argument's value, or the parameter's default. *)
Definition default {X} (d : X) (o : option X) : X :=
  match o with Some x => x | None => d end.

Context {Choice Kwargs : Type}.
(** [openai.Completion.create(prompt=..., model=..., max_tokens=..., **kw)]
    at a given invocation index, as the ['choices'] of its response. *)
Variable completion_create :
  nat -> list string -> string -> Z -> Kwargs -> outcome (list Choice).

(** [openai_method_retry(openai.Completion.create, prompt=texts_batch,
    model=model, max_tokens=max_tokens, **openai_completion_kwargs)]. *)
Definition completion_call (model : string) (max_tokens : Z)
           (kw : completion_kwargs Kwargs) (texts_batch : list string)
  : M (list Choice) :=
  if (kw_openai_method kw || kw_prompt kw)%bool then raise TypeError
  else openai_method_retry
         (fun i => completion_create i texts_batch model max_tokens (kw_rest kw))
         (default 5 (kw_max_num_tries kw)) (default 10%float (kw_sleep_sec kw)).

(** The [for texts_batch in batch.constant(texts, _batch_size)] loop. *)
Fixpoint complete_batches (model : string) (max_tokens : Z)
         (kw : completion_kwargs Kwargs)
         (batches : list (list string)) (choices : list Choice)
  : M (list Choice) :=
  match batches with
  | [] => ret choices
  | texts_batch :: batches' =>
      response <- completion_call model max_tokens kw texts_batch ;;
      let choices := choices ++ response in
      emit (Progress (List.length texts_batch)) ;;
      complete_batches model max_tokens kw batches' choices
  end.

Definition gpt3_complete (texts : texts_arg) (model : string)
           (ask_if_ok : bool) (max_tokens : Z) (kw : completion_kwargs Kwargs)
  : M (list Choice) :=
  let _batch_size := 20 in
  let texts := match texts with PyStr s => [s] | PySeq l => l end in
  (if ask_if_ok then _openai_api_call_is_ok model texts max_tokens
   else ret tt) ;;
  match constant texts _batch_size with
  | None => raise InvalidArgument
  | Some batches => complete_batches model max_tokens kw batches []
  end.

End Api.

Arguments mkKwargs {K} _ _ _ _ _.
Arguments kw_max_num_tries {K} _.
Arguments kw_sleep_sec {K} _.
Arguments kw_openai_method {K} _.
Arguments kw_prompt {K} _.
Arguments kw_rest {K} _.


(** * Properties *)

(** ** Facts about the monad and the retry loop *)

(** The exception raised by [after_loop]. *)
Definition after_loop_exn (exception : option openai_error) : exn :=
  match exception with
  | None => UnboundLocalError
  | Some e => OpenAIException e
  end.

Lemma after_loop_raises {A} (exception : option openai_error) (s : state) :
  @after_loop A exception s = (Exc (after_loop_exn exception), s).
Proof. destruct exception; reflexivity. Qed.

Lemma mkState_eta (s : state) : mkState (trace s) (inputs s) (ncalls s) = s.
Proof. destruct s; reflexivity. Qed.

Section RetryFacts.
Context {A : Type}.
Variable op : nat -> outcome A.
Variable max_num_tries : Z.
Variable sleep_sec : float.

(** The trace left by [k] retried failures: an invocation and a sleep
    for each. *)
Definition retried_failures (k : nat) : list event :=
  List.concat (repeat [Invoke; Sleep sleep_sec] k).

Lemma retried_failures_S (k : nat) :
  retried_failures (S k) = [Invoke; Sleep sleep_sec] ++ retried_failures k.
Proof. reflexivity. Qed.

Lemma invocations_app (t1 t2 : list event) :
  invocations (t1 ++ t2) = (invocations t1 + invocations t2)%nat.
Proof. unfold invocations. rewrite filter_app, length_app. reflexivity. Qed.

Lemma sleeps_app (t1 t2 : list event) :
  sleeps (t1 ++ t2) = (sleeps t1 + sleeps t2)%nat.
Proof. unfold sleeps. rewrite filter_app, length_app. reflexivity. Qed.

Lemma invocations_retried_failures (k : nat) :
  invocations (retried_failures k) = k.
Proof.
  induction k as [|k IH]; [reflexivity|].
  rewrite retried_failures_S, invocations_app, IH. reflexivity.
Qed.

Lemma sleeps_retried_failures (k : nat) :
  sleeps (retried_failures k) = k.
Proof.
  induction k as [|k IH]; [reflexivity|].
  rewrite retried_failures_S, sleeps_app, IH. reflexivity.
Qed.

(** Every invocation the loop can still make fails with a retried error
    [errs j]: the loop makes all of them, sleeps after each, and raises the
    last error (or [after_loop] of the initial [exception] if it has no
    iteration left). *)
Lemma retry_loop_all_retried (errs : nat -> openai_error) :
  forall (fuel : nat) (num_tries : Z) (exception : option openai_error)
         (s : state),
    max_num_tries - num_tries = Z.of_nat fuel ->
    (forall j, (j < fuel)%nat ->
       op (ncalls s + j)%nat = Failure (errs j) /\ is_retried (errs j) = true) ->
    retry_loop op max_num_tries sleep_sec fuel num_tries exception s =
    (Exc (match fuel with
          | O => after_loop_exn exception
          | S fuel' => OpenAIException (errs fuel')
          end),
     mkState (trace s ++ retried_failures fuel) (inputs s) (ncalls s + fuel)).
Proof.
  intros fuel. revert errs.
  induction fuel as [|fuel IH]; intros errs num_tries exception s Hfuel Hop.
  - simpl. rewrite after_loop_raises, app_nil_r, Nat.add_0_r, mkState_eta.
    reflexivity.
  - simpl retry_loop.
    replace (num_tries <? max_num_tries) with true by (symmetry; apply Z.ltb_lt; lia).
    destruct (Hop 0%nat ltac:(lia)) as [Hop0 Hret0].
    rewrite Nat.add_0_r in Hop0.
    unfold try_except, invoke. rewrite Hop0. rewrite Hret0.
    unfold bind, sleep, emit. simpl.
    rewrite (IH (fun j => errs (S j))).
    + simpl. rewrite <- !app_assoc. simpl.
      replace (S (ncalls s + fuel)) with (ncalls s + S fuel)%nat by lia.
      destruct fuel; reflexivity.
    + lia.
    + intros j Hj. simpl.
      replace (S (ncalls s + j)) with (ncalls s + S j)%nat by lia.
      apply Hop. lia.
Qed.

(** [n] retried failures, then a success, with iterations to spare. *)
Lemma retry_loop_retried_then_success (errs : nat -> openai_error) (v : A) :
  forall (n fuel : nat) (num_tries : Z) (exception : option openai_error)
         (s : state),
    max_num_tries - num_tries = Z.of_nat fuel ->
    (n < fuel)%nat ->
    (forall j, (j < n)%nat ->
       op (ncalls s + j)%nat = Failure (errs j) /\ is_retried (errs j) = true) ->
    op (ncalls s + n)%nat = Success v ->
    retry_loop op max_num_tries sleep_sec fuel num_tries exception s =
    (Ok v,
     mkState (trace s ++ retried_failures n ++ [Invoke]) (inputs s)
             (ncalls s + S n)).
Proof.
  intros n. revert errs.
  induction n as [|n IH]; intros errs fuel num_tries exception s Hfuel Hn Hop Hv;
    (destruct fuel as [|fuel]; [lia|]); simpl retry_loop;
    (replace (num_tries <? max_num_tries) with true
       by (symmetry; apply Z.ltb_lt; lia));
    unfold try_except, invoke.
  - rewrite Nat.add_0_r in Hv. rewrite Hv. simpl.
    rewrite Nat.add_1_r. reflexivity.
  - destruct (Hop 0%nat ltac:(lia)) as [Hop0 Hret0].
    rewrite Nat.add_0_r in Hop0. rewrite Hop0, Hret0.
    unfold bind, sleep, emit. simpl.
    rewrite (IH (fun j => errs (S j)) fuel).
    + simpl. rewrite <- !app_assoc. simpl.
      replace (S (ncalls s + S n)) with (ncalls s + S (S n))%nat by lia.
      reflexivity.
    + lia.
    + lia.
    + intros j Hj. simpl.
      replace (S (ncalls s + j)) with (ncalls s + S j)%nat by lia.
      apply Hop. lia.
    + simpl. replace (S (ncalls s + n)) with (ncalls s + S n)%nat by lia.
      exact Hv.
Qed.

End RetryFacts.

(** ** Claims on [openai_method_retry] *)

Definition s_empty : state := mkState [] [] 0.

(** An operation that fails with the same error on every invocation. *)
Definition always_failing (e : openai_error) : nat -> outcome unit :=
  fun _ => Failure e.

(** With [max_num_tries = m >= 1] and every invocation failing with a
    retried error: [m] invocations and [m] sleeps, one after every try. *)
Lemma retry_all_retried_counts {A} (op : nat -> outcome A) (m : nat)
    (sleep_sec : float) (errs : nat -> openai_error) (s : state) :
  (forall j, (j < m)%nat ->
     op (ncalls s + j)%nat = Failure (errs j) /\ is_retried (errs j) = true) ->
  exists tr,
    trace (snd (openai_method_retry op (Z.of_nat m) sleep_sec s)) = trace s ++ tr /\
    invocations tr = m /\ sleeps tr = m.
Proof.
  intros Hop. unfold openai_method_retry. rewrite Nat2Z.id.
  rewrite (retry_loop_all_retried op (Z.of_nat m) sleep_sec errs m 0 None s);
    [| lia | exact Hop].
  exists (retried_failures sleep_sec m). split; [reflexivity|].
  split; [apply invocations_retried_failures | apply sleeps_retried_failures].
Qed.

(** C1: on an operation that always fails with a transient error,
    [openai_method_retry] with [max_num_tries = 5] makes 5 invocations, as
    claimed, but sleeps 5 times, not 4: it also sleeps after the last failed
    try, before raising, where the docstring promises sleeps only in between
    tries.  Likewise 1 invocation and 1 sleep for
    [max_num_tries = 1]. *)
Lemma C1_sleeps_after_last_try :
  let op := always_failing (mkError ServiceUnavailableError 0) in
  let s5 := snd (openai_method_retry op 5 10%float s_empty) in
  let s1 := snd (openai_method_retry op 1 10%float s_empty) in
  fst (openai_method_retry op 5 10%float s_empty)
    = Exc (OpenAIException (mkError ServiceUnavailableError 0)) /\
  invocations (trace s5) = 5%nat /\ sleeps (trace s5) = 5%nat /\
  sleeps (trace s5) <> Nat.pred 5 /\
  invocations (trace s1) = 1%nat /\ sleeps (trace s1) = 1%nat /\
  sleeps (trace s1) <> Nat.pred 1.
Proof. vm_compute. repeat split; discriminate. Qed.



(** C3 as stated fails for [max_num_tries = 0]: the operation is never
    invoked and the error raised is [UnboundLocalError], not the
    operation's error. *)
Lemma C3_no_invocation_without_tries :
  let e := mkError (OtherError "InvalidRequestError") 0 in
  openai_method_retry (always_failing e) 0 10%float s_empty
    = (Exc UnboundLocalError, s_empty) /\
  fst (openai_method_retry (always_failing e) 0 10%float s_empty)
    <> Exc (OpenAIException e).
Proof. split; [reflexivity | discriminate]. Qed.

(** C3 (amended): with [max_num_tries >= 1], an operation whose first
    invocation fails with an error of any class other than
    [ServiceUnavailableError] and [RateLimitError] has that error propagated
    after exactly one invocation, with no sleep and no retry. *)
Theorem C3_non_retried_error_propagates {A} (op : nat -> outcome A)
    (max_num_tries : Z) (sleep_sec : float) (e : openai_error) (s : state) :
  1 <= max_num_tries ->
  op (ncalls s) = Failure e ->
  is_retried e = false ->
  openai_method_retry op max_num_tries sleep_sec s =
  (Exc (OpenAIException e),
   mkState (trace s ++ [Invoke]) (inputs s) (S (ncalls s))).
Proof.
  intros Hm Hop He. unfold openai_method_retry.
  destruct (Z.to_nat max_num_tries) as [|fuel] eqn:Hf; [lia|].
  simpl retry_loop.
  replace (0 <? max_num_tries) with true by (symmetry; apply Z.ltb_lt; lia).
  unfold try_except, invoke. rewrite Hop, He. reflexivity.
Qed.

Lemma C3_non_retried_error_propagates_witness :
  openai_method_retry (always_failing (mkError (OtherError "AuthenticationError") 7))
    5 10%float s_empty =
  (Exc (OpenAIException (mkError (OtherError "AuthenticationError") 7)),
   mkState (trace s_empty ++ [Invoke]) (inputs s_empty) (S (ncalls s_empty))).
Proof.
  apply C3_non_retried_error_propagates; [lia | reflexivity | reflexivity].
Defined.



(** C9: with [max_num_tries <= 0] the loop body never runs: the operation is
    not invoked, nothing is traced, and [UnboundLocalError] is raised. *)
Theorem C9_no_tries_unbound_local {A} (op : nat -> outcome A)
    (max_num_tries : Z) (sleep_sec : float) (s : state) :
  max_num_tries <= 0 ->
  openai_method_retry op max_num_tries sleep_sec s = (Exc UnboundLocalError, s).
Proof.
  intros Hm. unfold openai_method_retry.
  replace (Z.to_nat max_num_tries) with O by lia. reflexivity.
Qed.

Lemma C9_no_tries_unbound_local_witness :
  openai_method_retry (always_failing (mkError RateLimitError 0)) (-1) 10%float
    s_empty = (Exc UnboundLocalError, s_empty).
Proof. apply C9_no_tries_unbound_local; lia. Defined.

(** ** The confirmation prompt *)





Section GateFacts.
Variable float_of_int : Z -> float.
Variable py_round : float -> Z -> float.
Variable gpt2_encode : string -> list Z.





End GateFacts.




Example cost_table_davinci :
  dict_get "text-davinci-003" model_to_cost_per_1k = Some 0.02%float.
Proof. reflexivity. Qed.

Example cost_table_unlisted :
  dict_get "gpt-4" model_to_cost_per_1k = None.
Proof. reflexivity. Qed.

Section GateClaims.
Variable float_of_int : Z -> float.
Variable py_round : float -> Z -> float.
Variable gpt2_encode : string -> list Z.



End GateClaims.

(** ** The batcher model *)

Lemma chunks_concat {X} (size : nat) :
  (0 < size)%nat ->
  forall (fuel : nat) (l : list X), (List.length l <= fuel)%nat ->
    List.concat (chunks fuel size l) = l.
Proof.
  intros Hsize fuel. induction fuel as [|fuel IH]; intros l Hl.
  - destruct l; [reflexivity | simpl in Hl; lia].
  - destruct l as [|x l']; [reflexivity|].
    cbn [chunks List.concat]. rewrite IH; [apply firstn_skipn|].
    rewrite length_skipn. simpl in Hl |- *. destruct size; lia.
Qed.

(** Chunks of 20: [ceil(N / 20)] of them. *)
Lemma chunks_20_count {X} :
  forall (fuel : nat) (l : list X), (List.length l <= fuel)%nat ->
    List.length (chunks fuel 20 l) = ((List.length l + 19) / 20)%nat.
Proof.
  intros fuel. induction fuel as [|fuel IH]; intros l Hl.
  - destruct l; [reflexivity | simpl in Hl; lia].
  - destruct l as [|x l']; [reflexivity|].
    cbn [chunks List.length]. rewrite IH.
    + rewrite length_skipn. cbn [List.length].
      remember (List.length l') as n eqn:Hn. clear.
      replace (S n + 19)%nat with (n + 1 * 20)%nat by lia.
      rewrite Nat.div_add by lia.
      destruct (Nat.le_gt_cases 19 n).
      * replace (S n - 20 + 19)%nat with n by lia. lia.
      * replace (S n - 20 + 19)%nat with 19%nat by lia.
        rewrite (Nat.div_small n 20) by lia. reflexivity.
    + rewrite length_skipn. simpl in Hl |- *. lia.
Qed.

Example chunks_45 :
  map (@List.length nat) (chunks 45 20 (seq 0 45)) = [20; 20; 5]%nat.
Proof. reflexivity. Qed.

(** The batch that holds the [i]-th text: the [i / 20]-th chunk of 20. *)
Definition batch_of {X} (l : list X) (i : nat) : list X :=
  firstn 20 (skipn (20 * (i / 20)) l).

(** The [i]-th text sits at position [i mod 20] of its batch. *)
Lemma batch_of_nth {X} (l : list X) (i : nat) :
  nth_error (batch_of l i) (i mod 20) = nth_error l i.
Proof.
  unfold batch_of. rewrite nth_error_firstn.
  replace (i mod 20 <? 20)%nat with true
    by (symmetry; apply Nat.ltb_lt, Nat.mod_upper_bound; lia).
  rewrite nth_error_skipn. f_equal. symmetry. apply Nat.div_mod_eq.
Qed.

(** ** Orchestration *)

Section CompleteFacts.
Context {Choice Kwargs : Type}.
Variable completion_create :
  nat -> list string -> string -> Z -> Kwargs -> outcome (list Choice).

(** The keyword arguments give [openai_method_retry] no second value for
    [openai_method] or [prompt], and leave it at least one try. *)
Definition kwargs_ok (kw : completion_kwargs Kwargs) : Prop :=
  kw_openai_method kw = false /\ kw_prompt kw = false /\
  1 <= default 5 (kw_max_num_tries kw).

Lemma completion_call_success (model : string) (max_tokens : Z)
    (kw : completion_kwargs Kwargs) (b : list string) (cs : list Choice)
    (s : state) :
  kwargs_ok kw ->
  completion_create (ncalls s) b model max_tokens (kw_rest kw) = Success cs ->
  completion_call completion_create model max_tokens kw b s =
  (Ok cs, mkState (trace s ++ [Invoke]) (inputs s) (S (ncalls s))).
Proof.
  intros [Hm [Hp Hn]] Hcs. unfold completion_call. rewrite Hm, Hp.
  cbn [orb]. unfold openai_method_retry.
  rewrite (retry_loop_retried_then_success
             (fun i => completion_create i b model max_tokens (kw_rest kw))
             (default 5 (kw_max_num_tries kw)) (default 10%float (kw_sleep_sec kw))
             (fun _ => mkError RateLimitError 0) cs 0
             (Z.to_nat (default 5 (kw_max_num_tries kw))) 0 None s);
    [| lia | lia | intros; lia | rewrite Nat.add_0_r; exact Hcs].
  rewrite Nat.add_1_r. reflexivity.
Qed.

Lemma completion_call_fatal (model : string) (max_tokens : Z)
    (kw : completion_kwargs Kwargs) (b : list string) (e : openai_error)
    (s : state) :
  kwargs_ok kw ->
  completion_create (ncalls s) b model max_tokens (kw_rest kw) = Failure e ->
  is_retried e = false ->
  completion_call completion_create model max_tokens kw b s =
  (Exc (OpenAIException e), mkState (trace s ++ [Invoke]) (inputs s) (S (ncalls s))).
Proof.
  intros [Hm [Hp Hn]] He Hfatal. unfold completion_call. rewrite Hm, Hp.
  cbn [orb]. unfold openai_method_retry.
  destruct (Z.to_nat (default 5 (kw_max_num_tries kw))) as [|fuel] eqn:Hf; [lia|].
  simpl retry_loop.
  replace (0 <? default 5 (kw_max_num_tries kw)) with true
    by (symmetry; apply Z.ltb_lt; lia).
  unfold try_except, invoke. rewrite He, Hfatal. reflexivity.
Qed.

Lemma completion_call_type_error (model : string) (max_tokens : Z)
    (kw : completion_kwargs Kwargs) (b : list string) (s : state) :
  (kw_openai_method kw || kw_prompt kw)%bool = true ->
  completion_call completion_create model max_tokens kw b s = (Exc TypeError, s).
Proof. intros H. unfold completion_call. rewrite H. reflexivity. Qed.

(** Every batch answered at once, one choice per prompt: the choices of the
    [i]-th text of [l] are at position [i mod 20] of the answer to the call
    made for its batch, the [i / 20]-th from the start. *)
Lemma complete_batches_chunks (model : string) (max_tokens : Z)
    (kw : completion_kwargs Kwargs) :
  kwargs_ok kw ->
  (forall i ps, exists cs,
     completion_create i ps model max_tokens (kw_rest kw) = Success cs /\
     List.length cs = List.length ps) ->
  forall (fuel : nat) (l : list string) (choices : list Choice) (s : state),
    (List.length l <= fuel)%nat ->
    exists res tr,
      complete_batches completion_create model max_tokens kw
        (chunks fuel 20 l) choices s =
      (Ok (choices ++ res),
       mkState (trace s ++ tr) (inputs s) (ncalls s + List.length (chunks fuel 20 l))) /\
      List.length res = List.length l /\
      invocations tr = List.length (chunks fuel 20 l) /\
      (forall i, (i < List.length l)%nat ->
         exists cs,
           completion_create (ncalls s + i / 20) (batch_of l i) model max_tokens
             (kw_rest kw) = Success cs /\
           nth_error res i = nth_error cs (i mod 20)).
Proof.
  intros Hkw Hcreate fuel. induction fuel as [|fuel IH]; intros l choices s Hl.
  - destruct l; [|simpl in Hl; lia].
    exists [], []. cbn. rewrite !app_nil_r, Nat.add_0_r, mkState_eta.
    repeat split; try reflexivity. intros i Hi. simpl in Hi. lia.
  - destruct l as [|x l'].
    + exists [], []. cbn. rewrite !app_nil_r, Nat.add_0_r, mkState_eta.
      repeat split; try reflexivity. intros i Hi. simpl in Hi. lia.
    + destruct (Hcreate (ncalls s) (firstn 20 (x :: l'))) as [cs0 [Hcs0 Hlen0]].
      cbn [chunks complete_batches]. unfold bind at 1.
      rewrite (completion_call_success model max_tokens kw (firstn 20 (x :: l')) cs0 s
                 Hkw Hcs0).
      unfold bind, emit. cbn [trace inputs ncalls].
      destruct (IH (skipn 20 (x :: l')) (choices ++ cs0)
                  (mkState ((trace s ++ [Invoke])
                              ++ [Progress (List.length (firstn 20 (x :: l')))])
                           (inputs s) (S (ncalls s))))
        as [res [tr [Hrun [Hlen [Hinv Hslot]]]]];
        [rewrite length_skipn; simpl in Hl |- *; lia|].
      rewrite Hrun. cbn [trace inputs ncalls].
      exists (cs0 ++ res), ([Invoke; Progress (List.length (firstn 20 (x :: l')))] ++ tr).
      set (l := x :: l') in *.
      split; [|split; [|split]].
      * rewrite <- !app_assoc. cbn [List.length].
        replace (S (ncalls s) + List.length (chunks fuel 20 (skipn 20 l)))%nat
          with (ncalls s + S (List.length (chunks fuel 20 (skipn 20 l))))%nat by lia.
        reflexivity.
      * rewrite length_app, Hlen0, Hlen, length_firstn, length_skipn. lia.
      * rewrite invocations_app, Hinv. reflexivity.
      * intros i Hi.
        assert (Hlen0' : List.length cs0 = Nat.min 20 (List.length l))
          by (rewrite Hlen0; apply length_firstn).
        destruct (Nat.lt_ge_cases i 20) as [Hi20|Hi20].
        -- exists cs0.
           unfold batch_of.
           rewrite (Nat.div_small i 20 Hi20), (Nat.mod_small i 20 Hi20), Nat.add_0_r,
             Nat.mul_0_r.
           split; [exact Hcs0|].
           apply nth_error_app1. lia.
        -- destruct (Hslot (i - 20)%nat) as [cs [Hcs Hnth]];
             [rewrite length_skipn; lia|].
           cbn [ncalls] in Hcs. exists cs.
           assert (Hdiv : (i / 20 = (i - 20) / 20 + 1)%nat).
           { replace i with (i - 20 + 1 * 20)%nat at 1 by lia.
             apply Nat.div_add. lia. }
           assert (Hmod : (i mod 20 = (i - 20) mod 20)%nat).
           { replace i with (i - 20 + 1 * 20)%nat at 1 by lia.
             apply Nat.Div0.mod_add. }
           unfold batch_of. rewrite Hdiv, Hmod.
           split.
           ++ unfold batch_of in Hcs. rewrite skipn_skipn in Hcs.
              replace (20 * ((i - 20) / 20 + 1))%nat
                with (20 * ((i - 20) / 20) + 20)%nat by lia.
              replace (ncalls s + ((i - 20) / 20 + 1))%nat
                with (S (ncalls s) + (i - 20) / 20)%nat by lia.
              exact Hcs.
           ++ rewrite nth_error_app2 by lia.
              replace (i - List.length cs0)%nat with (i - 20)%nat by lia.
              exact Hnth.
Qed.

Lemma constant_20 (l : list string) :
  constant l 20 = Some (chunks (List.length l) 20 l).
Proof. reflexivity. Qed.

(** C5 (amended): with no [openai_method] or [prompt] keyword argument, at
    least one try per call ([max_num_tries], 5 unless given, [>= 1]), and
    every call answering one choice per prompt of its batch, [gpt3_complete]
    on [N] texts makes [ceil(N / 20)] remote calls and returns [N] choices;
    the [i]-th is the choice at position [i mod 20] of the answer to the
    [i / 20]-th call, whose batch holds the [i]-th text at that position. *)
Theorem C5_batched_results (texts : list string) (model : string)
    (max_tokens : Z) (kw : completion_kwargs Kwargs) (s : state)
    (float_of_int : Z -> float) (py_round : float -> Z -> float)
    (gpt2_encode : string -> list Z) :
  kw_openai_method kw = false -> kw_prompt kw = false ->
  1 <= default 5 (kw_max_num_tries kw) ->
  (forall i ps, exists cs,
     completion_create i ps model max_tokens (kw_rest kw) = Success cs /\
     List.length cs = List.length ps) ->
  let r := gpt3_complete float_of_int py_round gpt2_encode completion_create
             (PySeq texts) model false max_tokens kw s in
  exists choices,
    fst r = Ok choices /\
    List.length choices = List.length texts /\
    (forall i, (i < List.length texts)%nat ->
       exists cs,
         completion_create (ncalls s + i / 20) (batch_of texts i) model
           max_tokens (kw_rest kw) = Success cs /\
         nth_error (batch_of texts i) (i mod 20) = nth_error texts i /\
         nth_error choices i = nth_error cs (i mod 20)) /\
    ncalls (snd r) = (ncalls s + (List.length texts + 19) / 20)%nat /\
    exists tr, trace (snd r) = trace s ++ tr /\
               invocations tr = ((List.length texts + 19) / 20)%nat.
Proof.
  intros Hm Hp Hn Hcreate r. subst r.
  assert (Hkw : kwargs_ok kw) by (split; [|split]; assumption).
  destruct (complete_batches_chunks model max_tokens kw Hkw Hcreate
              (List.length texts) texts [] s (le_n _))
    as [res [tr [Hrun [Hlen [Hinv Hslot]]]]].
  assert (Hcount : List.length (chunks (List.length texts) 20 texts)
                   = ((List.length texts + 19) / 20)%nat)
    by (apply chunks_20_count; lia).
  unfold gpt3_complete, bind, ret. cbv beta iota zeta.
  rewrite constant_20, Hrun. cbn [fst snd trace ncalls app].
  exists res. split; [reflexivity|]. split; [exact Hlen|]. split.
  - intros i Hi. destruct (Hslot i Hi) as [cs [Hcs Hnth]].
    exists cs. split; [exact Hcs|]. split; [apply batch_of_nth | exact Hnth].
  - rewrite Hcount. split; [reflexivity|].
    exists tr. split; [reflexivity|]. rewrite Hinv. exact Hcount.
Qed.

End CompleteFacts.

Section CompleteClaims.
Variable float_of_int : Z -> float.
Variable py_round : float -> Z -> float.
Variable gpt2_encode : string -> list Z.
Context {Choice Kwargs : Type}.
Variable completion_create :
  nat -> list string -> string -> Z -> Kwargs -> outcome (list Choice).

(** C6: a bare string [s] is handled exactly as the one-element list [[s]]:
    same result, same prompts, same remote calls, from every state. *)
Theorem C6_bare_string_as_singleton (str : string) (model : string)
    (ask_if_ok : bool) (max_tokens : Z) (kw : completion_kwargs Kwargs) :
  gpt3_complete float_of_int py_round gpt2_encode completion_create
    (PyStr str) model ask_if_ok max_tokens kw =
  gpt3_complete float_of_int py_round gpt2_encode completion_create
    (PySeq [str]) model ask_if_ok max_tokens kw.
Proof. reflexivity. Qed.


End CompleteClaims.

(** ** Concrete runs *)

Definition float_of_int_stub (_ : Z) : float := 0%float.
Definition py_round_stub (x : float) (_ : Z) : float := x.
(** An encoder giving one token per character. *)
Definition encode_stub (t : string) : list Z := repeat 0 (String.length t).
(** A completion endpoint answering each prompt with its length. *)
Definition create_lengths (_ : nat) (ps : list string) (_ : string) (_ : Z)
    (_ : unit) : outcome (list nat) :=
  Success (map String.length ps).

(** [gpt3_complete(texts, model)] with no further keyword argument. *)
Definition no_kwargs : completion_kwargs unit := mkKwargs None None false false tt.

Definition progress_sizes (t : list event) : list nat :=
  flat_map (fun ev => match ev with Progress n => [n] | _ => [] end) t.

Definition texts_45 : list string := repeat "ab"%string 45.

Example gpt3_complete_45_texts :
  let r := gpt3_complete float_of_int_stub py_round_stub encode_stub create_lengths
             (PySeq texts_45) "text-ada-001" false 0 no_kwargs s_empty in
  fst r = Ok (repeat 2%nat 45) /\ ncalls (snd r) = 3%nat /\
  progress_sizes (trace (snd r)) = [20; 20; 5]%nat.
Proof. vm_compute. repeat split. Qed.

(** C5 as stated fails when a keyword argument reaches [openai_method_retry]:
    with [max_num_tries=0] one text gives [UnboundLocalError] after no remote
    call, not one call and one choice; a [prompt] keyword argument gives
    [TypeError], also with no call. *)
Lemma C5_kwargs_reach_retry :
  let r0 := gpt3_complete float_of_int_stub py_round_stub encode_stub create_lengths
              (PySeq ["a"]%string) "text-ada-001" false 0
              (mkKwargs (Some 0) None false false tt) s_empty in
  let rp := gpt3_complete float_of_int_stub py_round_stub encode_stub create_lengths
              (PySeq ["a"]%string) "text-ada-001" false 0
              (mkKwargs None None false true tt) s_empty in
  r0 = (Exc UnboundLocalError, s_empty) /\
  ncalls (snd r0) <> ((List.length ["a"]%string + 19) / 20)%nat /\
  rp = (Exc TypeError, s_empty).
Proof. vm_compute. split; [reflexivity | split; [discriminate | reflexivity]]. Qed.

Lemma C5_batched_results_witness :
  let r := gpt3_complete float_of_int_stub py_round_stub encode_stub create_lengths
             (PySeq texts_45) "text-ada-001" false 0 no_kwargs s_empty in
  exists choices,
    fst r = Ok choices /\
    List.length choices = List.length texts_45 /\
    (forall i, (i < List.length texts_45)%nat ->
       exists cs,
         create_lengths (ncalls s_empty + i / 20) (batch_of texts_45 i)
           "text-ada-001" 0 (kw_rest no_kwargs) = Success cs /\
         nth_error (batch_of texts_45 i) (i mod 20) = nth_error texts_45 i /\
         nth_error choices i = nth_error cs (i mod 20)) /\
    ncalls (snd r) = (ncalls s_empty + (List.length texts_45 + 19) / 20)%nat /\
    exists tr, trace (snd r) = trace s_empty ++ tr /\
               invocations tr = ((List.length texts_45 + 19) / 20)%nat.
Proof.
  apply (C5_batched_results create_lengths texts_45 "text-ada-001" 0 no_kwargs
           s_empty float_of_int_stub py_round_stub encode_stub).
  - reflexivity.
  - reflexivity.
  - simpl. lia.
  - intros i ps. eexists. split; [reflexivity | apply length_map].
Defined.







(** * Further properties of the module *)

(** ** [openai_method_retry] *)

Section RetryExtra.
Context {A : Type}.
Variable op : nat -> outcome A.
Variable max_num_tries : Z.
Variable sleep_sec : float.

(** What any run of the loop leaves: it only appends to the trace, reads no
    operator input, counts each invocation, makes at most [fuel] of them,
    and sleeps at most once per invocation. *)
Lemma retry_loop_frame :
  forall (fuel : nat) (num_tries : Z) (exception : option openai_error)
         (s : state),
    exists tr,
      trace (snd (retry_loop op max_num_tries sleep_sec fuel num_tries exception s))
        = trace s ++ tr /\
      inputs (snd (retry_loop op max_num_tries sleep_sec fuel num_tries exception s))
        = inputs s /\
      ncalls (snd (retry_loop op max_num_tries sleep_sec fuel num_tries exception s))
        = (ncalls s + invocations tr)%nat /\
      (invocations tr <= fuel)%nat /\ (sleeps tr <= invocations tr)%nat.
Proof.
  intros fuel. induction fuel as [|fuel IH]; intros num_tries exception s.
  - exists []. simpl. rewrite after_loop_raises. simpl.
    rewrite app_nil_r. cbn [invocations sleeps filter List.length]; repeat split; lia.
  - simpl retry_loop. destruct (num_tries <? max_num_tries).
    + unfold try_except, invoke. destruct (op (ncalls s)) as [a|e].
      * exists [Invoke]. simpl. cbn [invocations sleeps filter List.length]; repeat split; lia.
      * destruct (is_retried e).
        -- unfold bind, sleep, emit. cbn [trace inputs ncalls].
           destruct (IH (num_tries + 1) (Some e)
                       (mkState ((trace s ++ [Invoke]) ++ [Sleep sleep_sec])
                                (inputs s) (S (ncalls s))))
             as [tr [Ht [Hi [Hc [Hle Hsl]]]]].
           exists ([Invoke; Sleep sleep_sec] ++ tr).
           rewrite Ht, Hi, Hc. cbn [trace inputs ncalls].
           rewrite invocations_app, sleeps_app. rewrite <- !app_assoc.
           cbn. cbn [invocations sleeps filter List.length]; repeat split; lia.
        -- exists [Invoke]. simpl. cbn [invocations sleeps filter List.length]; repeat split; lia.
    + exists []. rewrite after_loop_raises. simpl.
      rewrite app_nil_r. cbn [invocations sleeps filter List.length]; repeat split; lia.
Qed.

(** A run that still has a try left, or has already seen an error, never
    ends in [UnboundLocalError]. *)
Lemma retry_loop_no_unbound :
  forall (fuel : nat) (num_tries : Z) (exception : option openai_error)
         (s : state),
    (exception <> None \/ (num_tries < max_num_tries /\ (1 <= fuel)%nat)) ->
    fst (retry_loop op max_num_tries sleep_sec fuel num_tries exception s)
      <> Exc UnboundLocalError.
Proof.
  intros fuel. induction fuel as [|fuel IH]; intros num_tries exception s Hpre.
  - simpl. rewrite after_loop_raises. simpl.
    destruct exception; [discriminate|]. destruct Hpre as [H|H]; [congruence|lia].
  - simpl retry_loop. destruct (num_tries <? max_num_tries) eqn:Hlt.
    + unfold try_except, invoke. destruct (op (ncalls s)) as [a|e];
        [discriminate|].
      destruct (is_retried e); [|discriminate].
      unfold bind, sleep, emit. apply IH. left. discriminate.
    + rewrite after_loop_raises. simpl.
      destruct exception; [discriminate|].
      destruct Hpre as [H|H]; [congruence|]. apply Z.ltb_nlt in Hlt. lia.
Qed.


End RetryExtra.

(** X1: whatever the operation does, [openai_method_retry] makes at most
    [max_num_tries] invocations (none if it is not positive), sleeps at most
    once per invocation, and leaves the pending operator input alone. *)
Theorem retry_bounded_calls {A} (op : nat -> outcome A) (max_num_tries : Z)
    (sleep_sec : float) (s : state) :
  let s' := snd (openai_method_retry op max_num_tries sleep_sec s) in
  exists tr,
    trace s' = trace s ++ tr /\ inputs s' = inputs s /\
    ncalls s' = (ncalls s + invocations tr)%nat /\
    (invocations tr <= Z.to_nat max_num_tries)%nat /\
    (sleeps tr <= invocations tr)%nat.
Proof. apply retry_loop_frame. Qed.

(** X2: with [max_num_tries >= 1], [openai_method_retry] never ends in
    [UnboundLocalError], whatever the operation does. *)
Theorem retry_no_unbound_local {A} (op : nat -> outcome A) (max_num_tries : Z)
    (sleep_sec : float) (s : state) :
  1 <= max_num_tries ->
  fst (openai_method_retry op max_num_tries sleep_sec s) <> Exc UnboundLocalError.
Proof.
  intros Hm. apply retry_loop_no_unbound. right. split; lia.
Qed.

Lemma retry_no_unbound_local_witness :
  fst (openai_method_retry (fun i => @Failure unit (mkError RateLimitError i))
         2 10%float s_empty) <> Exc UnboundLocalError.
Proof. apply retry_no_unbound_local. lia. Defined.




(** ** The confirmation gate and the cost table *)







Section GateExtra.
Variable float_of_int : Z -> float.
Variable py_round : float -> Z -> float.
Variable gpt2_encode : string -> list Z.




End GateExtra.





(** ** [gpt3_complete] *)

Lemma constant_20_cons (x : string) (l : list string) :
  constant (x :: l) 20 =
  Some (firstn 20 (x :: l) :: chunks (List.length l) 20 (skipn 20 (x :: l))).
Proof. reflexivity. Qed.

Lemma sum_lengths_concat {X} (bs : list (list X)) :
  fold_right Nat.add 0%nat (map (@List.length X) bs) = List.length (List.concat bs).
Proof.
  induction bs as [|b bs IH]; [reflexivity|].
  cbn [map fold_right List.concat]. rewrite length_app, IH. reflexivity.
Qed.

Section CompleteExtra.
Variable float_of_int : Z -> float.
Variable py_round : float -> Z -> float.
Variable gpt2_encode : string -> list Z.
Context {Choice Kwargs : Type}.
Variable completion_create :
  nat -> list string -> string -> Z -> Kwargs -> outcome (list Choice).

Lemma complete_batches_succeed (model : string) (max_tokens : Z)
    (kw : completion_kwargs Kwargs) :
  kwargs_ok kw ->
  (forall i ps, exists cs,
     completion_create i ps model max_tokens (kw_rest kw) = Success cs) ->
  forall (batches : list (list string)) (choices : list Choice) (s : state),
    exists res tr,
      complete_batches completion_create model max_tokens kw batches choices s =
      (Ok res, mkState (trace s ++ tr) (inputs s) (ncalls s + List.length batches)) /\
      progress_sizes tr = map (@List.length string) batches /\
      invocations tr = List.length batches /\ sleeps tr = 0%nat.
Proof.
  intros Hkw Hcreate batches. induction batches as [|b bs IH]; intros choices s.
  - exists choices, []. simpl. rewrite app_nil_r, Nat.add_0_r, mkState_eta.
    repeat split; reflexivity.
  - destruct (Hcreate (ncalls s) b) as [cs Hcs].
    cbn [complete_batches]. unfold bind at 1.
    rewrite (completion_call_success completion_create model max_tokens kw b cs s
               Hkw Hcs).
    unfold bind, emit. cbn [trace inputs ncalls].
    destruct (IH (choices ++ cs)
                (mkState ((trace s ++ [Invoke]) ++ [Progress (List.length b)])
                         (inputs s) (S (ncalls s))))
      as [res [tr [Hrun [Hp [Hi Hsl]]]]].
    rewrite Hrun. cbn [trace inputs ncalls].
    exists res, ([Invoke; Progress (List.length b)] ++ tr).
    split.
    + rewrite <- !app_assoc. cbn [List.length].
      replace (S (ncalls s) + List.length bs)%nat
        with (ncalls s + S (List.length bs))%nat by lia.
      reflexivity.
    + unfold progress_sizes in *. rewrite flat_map_app.
      rewrite invocations_app, sleeps_app, Hp, Hi, Hsl. cbn. repeat split; lia.
Qed.

(** X7: an empty sequence of texts (without the prompt) gives the empty
    list of choices, with no remote call and nothing else done. *)
Theorem gpt3_complete_empty (model : string) (max_tokens : Z)
    (kw : completion_kwargs Kwargs) (s : state) :
  gpt3_complete float_of_int py_round gpt2_encode completion_create
    (PySeq []) model false max_tokens kw s = (Ok [], s).
Proof. reflexivity. Qed.


(** X9: on non-empty texts, with no [openai_method] or [prompt] keyword
    argument and at least one try per call, if every remote call fails with
    an error that is not retried, the first call's error is raised after
    that one call: no later batch is sent and no choice is returned. *)
Theorem gpt3_complete_fatal_first_batch (texts : list string) (model : string)
    (max_tokens : Z) (kw : completion_kwargs Kwargs) (e : openai_error)
    (s : state) :
  texts <> [] ->
  kw_openai_method kw = false -> kw_prompt kw = false ->
  1 <= default 5 (kw_max_num_tries kw) ->
  (forall i ps, completion_create i ps model max_tokens (kw_rest kw) = Failure e) ->
  is_retried e = false ->
  gpt3_complete float_of_int py_round gpt2_encode completion_create
    (PySeq texts) model false max_tokens kw s =
  (Exc (OpenAIException e),
   mkState (trace s ++ [Invoke]) (inputs s) (S (ncalls s))).
Proof.
  intros Hne Hm Hp Hn Hcreate Hfatal.
  destruct texts as [|x l]; [congruence|].
  unfold gpt3_complete, bind at 1, ret. cbn beta iota zeta.
  rewrite constant_20_cons. cbn [complete_batches].
  unfold bind at 1.
  rewrite (completion_call_fatal completion_create model max_tokens kw
             (firstn 20 (x :: l)) e s); [reflexivity | | apply Hcreate | exact Hfatal].
  split; [|split]; assumption.
Qed.

(** X10: with no [openai_method] or [prompt] keyword argument and at least
    one try per call, when every remote call succeeds (with any choices),
    [gpt3_complete] returns normally after [ceil(N / 20)] calls and no
    sleep, and its progress-bar updates are the batch sizes, adding up to
    [N]. *)
Theorem gpt3_complete_progress_total (texts : list string) (model : string)
    (max_tokens : Z) (kw : completion_kwargs Kwargs) (s : state) :
  kw_openai_method kw = false -> kw_prompt kw = false ->
  1 <= default 5 (kw_max_num_tries kw) ->
  (forall i ps, exists cs,
     completion_create i ps model max_tokens (kw_rest kw) = Success cs) ->
  exists res tr,
    gpt3_complete float_of_int py_round gpt2_encode completion_create
      (PySeq texts) model false max_tokens kw s =
    (Ok res, mkState (trace s ++ tr) (inputs s)
                     (ncalls s + (List.length texts + 19) / 20)) /\
    fold_right Nat.add 0%nat (progress_sizes tr) = List.length texts /\
    invocations tr = ((List.length texts + 19) / 20)%nat /\ sleeps tr = 0%nat.
Proof.
  intros Hm Hp Hn Hcreate.
  assert (Hkw : kwargs_ok kw) by (split; [|split]; assumption).
  destruct (complete_batches_succeed model max_tokens kw Hkw Hcreate
              (chunks (List.length texts) 20 texts) [] s)
    as [res [tr [Hrun [Hps [Hi Hsl]]]]].
  exists res, tr.
  assert (Hcount : List.length (chunks (List.length texts) 20 texts)
                   = ((List.length texts + 19) / 20)%nat)
    by (apply chunks_20_count; lia).
  split; [|split; [|split]].
  - unfold gpt3_complete, bind, ret. cbv beta iota zeta.
    rewrite constant_20, Hrun, Hcount. reflexivity.
  - rewrite Hps, sum_lengths_concat, chunks_concat by lia. reflexivity.
  - rewrite Hi. exact Hcount.
  - exact Hsl.
Qed.


(** X12: on non-empty texts, an [openai_method] or [prompt] keyword argument
    makes the first [openai_method_retry] call a [TypeError]: it is raised
    before any remote call, and nothing is traced. *)
Theorem gpt3_complete_duplicate_keyword (texts : list string) (model : string)
    (max_tokens : Z) (kw : completion_kwargs Kwargs) (s : state) :
  texts <> [] ->
  (kw_openai_method kw || kw_prompt kw)%bool = true ->
  gpt3_complete float_of_int py_round gpt2_encode completion_create
    (PySeq texts) model false max_tokens kw s = (Exc TypeError, s).
Proof.
  intros Hne Hdup.
  destruct texts as [|x l]; [congruence|].
  unfold gpt3_complete, bind at 1, ret. cbn beta iota zeta.
  rewrite constant_20_cons. cbn [complete_batches].
  unfold bind at 1. rewrite completion_call_type_error by exact Hdup.
  reflexivity.
Qed.

(** X13: on non-empty texts, a [max_num_tries] keyword argument [<= 0]
    (and no [openai_method] or [prompt] one) makes [gpt3_complete] raise
    [UnboundLocalError] with no remote call and nothing traced. *)
Theorem gpt3_complete_no_tries (texts : list string) (model : string)
    (max_tokens : Z) (kw : completion_kwargs Kwargs) (k : Z) (s : state) :
  texts <> [] ->
  kw_openai_method kw = false -> kw_prompt kw = false ->
  kw_max_num_tries kw = Some k -> k <= 0 ->
  gpt3_complete float_of_int py_round gpt2_encode completion_create
    (PySeq texts) model false max_tokens kw s = (Exc UnboundLocalError, s).
Proof.
  intros Hne Hm Hp Hk Hle.
  destruct texts as [|x l]; [congruence|].
  unfold gpt3_complete, bind at 1, ret. cbn beta iota zeta.
  rewrite constant_20_cons. cbn [complete_batches].
  unfold bind at 1, completion_call. rewrite Hm, Hp, Hk. cbn [orb default].
  unfold openai_method_retry.
  replace (Z.to_nat k) with O by lia. reflexivity.
Qed.

End CompleteExtra.

Definition create_fatal (_ : nat) (_ : list string) (_ : string) (_ : Z)
    (_ : unit) : outcome (list nat) :=
  Failure (mkError (OtherError "InvalidRequestError") 0).




Lemma gpt3_complete_fatal_first_batch_witness :
  gpt3_complete float_of_int_stub py_round_stub encode_stub create_fatal
    (PySeq texts_45) "text-ada-001" false 0 no_kwargs s_empty =
  (Exc (OpenAIException (mkError (OtherError "InvalidRequestError") 0)),
   mkState (trace s_empty ++ [Invoke]) (inputs s_empty) (S (ncalls s_empty))).
Proof.
  apply (gpt3_complete_fatal_first_batch float_of_int_stub py_round_stub encode_stub
           create_fatal); try reflexivity.
  - discriminate.
  - simpl. lia.
Defined.

Lemma gpt3_complete_progress_total_witness :
  exists res tr,
    gpt3_complete float_of_int_stub py_round_stub encode_stub create_lengths
      (PySeq texts_45) "text-ada-001" false 0 no_kwargs s_empty =
    (Ok res, mkState (trace s_empty ++ tr) (inputs s_empty)
                     (ncalls s_empty + (List.length texts_45 + 19) / 20)) /\
    fold_right Nat.add 0%nat (progress_sizes tr) = List.length texts_45 /\
    invocations tr = ((List.length texts_45 + 19) / 20)%nat /\ sleeps tr = 0%nat.
Proof.
  apply (gpt3_complete_progress_total float_of_int_stub py_round_stub encode_stub
           create_lengths); try reflexivity.
  - simpl. lia.
  - intros i ps. eexists. reflexivity.
Defined.


Lemma gpt3_complete_duplicate_keyword_witness :
  gpt3_complete float_of_int_stub py_round_stub encode_stub create_lengths
    (PySeq texts_45) "text-ada-001" false 0 (mkKwargs None None false true tt) s_empty
  = (Exc TypeError, s_empty).
Proof.
  apply (gpt3_complete_duplicate_keyword float_of_int_stub py_round_stub encode_stub
           create_lengths); [discriminate | reflexivity].
Defined.

Lemma gpt3_complete_no_tries_witness :
  gpt3_complete float_of_int_stub py_round_stub encode_stub create_lengths
    (PySeq texts_45) "text-ada-001" false 0 (mkKwargs (Some 0) None false false tt) s_empty
  = (Exc UnboundLocalError, s_empty).
Proof.
  apply (gpt3_complete_no_tries float_of_int_stub py_round_stub encode_stub
           create_lengths _ _ _ _ 0); try reflexivity.
  all: first [discriminate | lia].
Defined.
